(** * DNS helper of BBOT: resolution cache, wildcard detection and
      wildcard event rewriting

    Shallow embedding of [bbot/core/helpers/dns/dns.py] (class [DNSHelper]).
    The asynchronous methods are embedded as sequential state-passing
    computations: a coroutine that is awaited to completion before the next
    one starts behaves as a function from the state before to an outcome and
    the state after.  The named lock taken by [resolve_event] is therefore
    not represented. *)

From stdpp Require Import gmap strings list.
From Stdlib Require Import Ascii.

Open Scope string_scope.

(** ** Python strings (ASCII fragment) *)

Module PyStr.

Definition lower_ascii (c : ascii) : ascii :=
  let n := nat_of_ascii c in
  if (65 <=? n)%nat && (n <=? 90)%nat then ascii_of_nat (n + 32) else c.

Definition upper_ascii (c : ascii) : ascii :=
  let n := nat_of_ascii c in
  if (97 <=? n)%nat && (n <=? 122)%nat then ascii_of_nat (n - 32) else c.

Fixpoint map_chars (f : ascii -> ascii) (s : string) : string :=
  match s with
  | EmptyString => EmptyString
  | String c s' => String (f c) (map_chars f s')
  end.

(** [s.lower()] and [s.upper()] *)
Definition lower : string -> string := map_chars lower_ascii.
Definition upper : string -> string := map_chars upper_ascii.

(** [s.split(sep)] for a one-character separator: never the empty list. *)
Fixpoint split (sep : ascii) (s : string) : list string :=
  match s with
  | EmptyString => [EmptyString]
  | String c s' =>
      if Ascii.eqb c sep then EmptyString :: split sep s'
      else match split sep s' with
           | [] => [String c EmptyString]
           | w :: ws => String c w :: ws
           end
  end.

(** [c in s] for a one-character [c] *)
Fixpoint contains_char (c : ascii) (s : string) : bool :=
  match s with
  | EmptyString => false
  | String c' s' => Ascii.eqb c' c || contains_char c s'
  end.

(** [x in l] for a list of strings *)
Definition mem (x : string) (l : list string) : bool :=
  existsb (String.eqb x) l.

(** [bool(s)]: a string is falsy exactly when empty *)
Definition truthy (s : string) : bool :=
  match s with EmptyString => false | _ => true end.

End PyStr.

(** ** Exceptions and the state-and-exception monad *)

Inductive exn : Type :=
| ValueError (msg : string)
| NameError (name : string)
| UnboundLocalError (name : string)
| EngineError (msg : string).

Definition M (S A : Type) : Type := S -> (exn + A) * S.

Definition ret {S A} (a : A) : M S A := fun s => (inr a, s).
Definition raise {S A} (e : exn) : M S A := fun s => (inl e, s).
Definition bind {S A B} (m : M S A) (k : A -> M S B) : M S B :=
  fun s => match m s with
           | (inr a, s') => k a s'
           | (inl e, s') => (inl e, s')
           end.
Definition get {S} : M S S := fun s => (inr s, s).
Definition modify {S} (f : S -> S) : M S unit := fun s => (inr tt, f s).

(** [try: body finally: fin]: [fin] runs on both exits; the outcome of
    [body] is kept unless [fin] itself raises. *)
Definition try_finally {S A} (body : M S A) (fin : M S unit) : M S A :=
  fun s => match body s with
           | (r, s') => match fin s' with
                        | (inr _, s'') => (r, s'')
                        | (inl e, s'') => (inl e, s'')
                        end
           end.

(** Running a computation on one component of a pair state. *)
Definition lift_snd {S1 S2 A} (m : M S2 A) : M (S1 * S2) A :=
  fun '(s1, s2) => match m s2 with (r, s2') => (r, (s1, s2')) end.

Declare Scope py_scope.
Delimit Scope py_scope with py.
Notation "x <- m ;; k" := (bind m (fun x => k))
  (at level 100, m at next level, right associativity) : py_scope.
Notation "m ;;; k" := (bind m (fun _ => k))
  (at level 100, right associativity) : py_scope.

(** Reading a local variable that may not have been assigned yet. *)
Definition read_local {S A} (name : string) (v : option A) : M S A :=
  match v with
  | Some a => ret a
  | None => raise (UnboundLocalError name)
  end.

(** [log.debug(...)] has no effect on the modelled state. *)
Definition log_debug {S} : M S unit := ret tt.

(** ** Data model *)

(** [event.dns_children]: a dict from record type to the set of values
    found for it, in insertion order. *)
Abbreviation DnsChildren := (list (string * list string)).

(** Result of a wildcard check: a dict from record type to
    [(is_wildcard, wildcard_parent)], in insertion order.  [is_wildcard] is
    [True], [False] or [None] (inconclusive). *)
Abbreviation WildcardRdtypes := (list (string * (option bool * string))).

(** The part of a scan event this module reads and writes. *)
Record Event : Type := mkEvent {
  host : option string;
  type : string;
  data : string;
  tags : gset string;
  dns_children : DnsChildren
}.

(** [event.add_tag(tag)] *)
Definition add_tag (tag : string) (e : Event) : Event :=
  mkEvent (host e) (type e) (data e) (tags e ∪ {[ tag ]}) (dns_children e).

(** [event.data = d] *)
Definition set_data (d : string) (e : Event) : Event :=
  mkEvent (host e) (type e) d (tags e) (dns_children e).

(** [bool(event.host)]: an absent or empty host is falsy. *)
Definition host_truthy (h : option string) : bool :=
  match h with
  | None => false
  | Some s => PyStr.truthy s
  end.

(** [str(event.host)] *)
Definition str_host (h : option string) : string :=
  match h with
  | None => "None"
  | Some s => s
  end.

(** [cachetools.LRUCache] with entries of size one: the most recently used
    entry is at the head. *)
Module LRUCache.
Section Cache.
Context {V : Type}.

Definition maxsize : nat := 100 * 100.

Fixpoint lookup (k : string) (c : list (string * V)) : option V :=
  match c with
  | [] => None
  | (k', v) :: c' => if String.eqb k' k then Some v else lookup k c'
  end.

Definition remove (k : string) (c : list (string * V)) : list (string * V) :=
  filter (fun kv => kv.1 ≠ k) c.

(** [c[k]]: [None] stands for [KeyError]; a hit refreshes the entry. *)
Definition getitem (k : string) (c : list (string * V))
  : option (V * list (string * V)) :=
  match lookup k c with
  | Some v => Some (v, (k, v) :: remove k c)
  | None => None
  end.

(** [c[k] = v]: a new key evicts least recently used entries until there
    is room for it. *)
Definition setitem (k : string) (v : V) (c : list (string * V))
  : list (string * V) :=
  match lookup k c with
  | Some _ => (k, v) :: remove k c
  | None => (k, v) :: take (maxsize - 1) c
  end.
End Cache.
End LRUCache.

(** Requests sent to the DNS engine through [run_and_return]. *)
Inductive EngineCall : Type :=
| CallResolveEvent (event_host event_type : string) (minimal : bool)
| CallIsWildcard (query : string) (ips : option (list string))
                 (rdtype : option string).

(** Mutable state of the helper: [self._event_cache] and the requests the
    engine has received so far (latest first). *)
Record World : Type := mkWorld {
  event_cache : list (string * (gset string * DnsChildren));
  engine_calls : list EngineCall
}.

(** The helpers imported from [..misc]; their code is outside this module. *)
Record Misc : Type := mkMisc {
  is_ip : option string -> bool;
  is_domain : string -> bool;
  is_dns_name : string -> bool;
  host_in_host : string -> string -> bool;
  clean_dns_record : string -> string
}.

(** What [self] provides: configuration, the parent helper's
    [parent_domain] and the answers of the engine process ([inl] is an
    exception raised by the engine call). *)
Record DNSHelper : Type := mkDNSHelper {
  misc : Misc;
  wildcard_ignore : list string;
  parent_domain : string -> string;
  engine_resolve_event :
    string -> string -> bool -> string + (gset string * DnsChildren);
  engine_is_wildcard :
    string -> option (list string) -> option string -> string + WildcardRdtypes
}.

(** Names bound at module level in [dns.py]. *)
Definition module_globals : list string :=
  ["dns"; "logging"; "LRUCache"; "suppress"; "ValidationError";
   "EngineClient"; "NamedLock"; "clean_dns_record"; "is_ip"; "is_domain";
   "is_dns_name"; "host_in_host"; "DNSEngine"; "log"; "DNSHelper"].

(** Reading a name that is not local to the function: every module-level
    object is something other than [None]; an unknown name raises.  The
    result is the truth value of [name is not None]. *)
Definition global_is_not_None {S} (name : string) : M S bool :=
  if PyStr.mem name module_globals then ret true else raise (NameError name).

(** What [resolve_event] hands back: its return statements build tuples of
    four and of two components. *)
Inductive ResolveResult : Type :=
| Tuple4 (event_tags : gset string) (whitelisted blacklisted : bool)
         (children : DnsChildren)
| Tuple2 (event_tags : gset string) (children : DnsChildren).

(** ** The methods of [DNSHelper] *)

Section Methods.
Context (self : DNSHelper).
Open Scope py_scope.

(** [await self.run_and_return("resolve_event", ...)] *)
Definition run_resolve_event (event_host event_type : string)
    (minimal : bool) : M World (gset string * DnsChildren) :=
  fun w =>
    let w' := mkWorld (event_cache w)
                (CallResolveEvent event_host event_type minimal
                   :: engine_calls w) in
    match engine_resolve_event self event_host event_type minimal with
    | inl msg => (inl (EngineError msg), w')
    | inr r => (inr r, w')
    end.

(** [await self.run_and_return("is_wildcard", ...)] *)
Definition run_is_wildcard (query : string) (ips : option (list string))
    (rdtype : option string) : M World WildcardRdtypes :=
  fun w =>
    let w' := mkWorld (event_cache w)
                (CallIsWildcard query ips rdtype :: engine_calls w) in
    match engine_is_wildcard self query ips rdtype with
    | inl msg => (inl (EngineError msg), w')
    | inr r => (inr r, w')
    end.

Definition set_event_cache (c : list (string * (gset string * DnsChildren)))
  : M World unit :=
  modify (fun w => mkWorld c (engine_calls w)).

(** [(not event.host) or (event.type in ("IP_RANGE",))] *)
Definition no_host_or_ip_range (event : Event) : bool :=
  negb (host_truthy (host event)) || PyStr.mem (type event) ["IP_RANGE"].

(** The body of the [try] statement in [resolve_event]: [Some r] is a
    [return r] from inside it, [None] falls through to the code after
    the [except KeyError: pass] handler. *)
Definition resolve_event_from_cache (event_host : string)
    (event_tags : gset string) : M World (option ResolveResult) :=
  w <- get ;;
  match LRUCache.getitem event_host (event_cache w) with
  | None => ret None
  | Some ((_event_tags, _dns_children), c) =>
      set_event_cache c ;;;
      let event_tags := event_tags ∪ _event_tags in
      found <- global_is_not_None "_event_whitelisted" ;;
      if found then ret (Some (Tuple2 event_tags _dns_children))
      else ret None
  end.

Definition resolve_event (event : Event) (minimal : bool)
  : M World ResolveResult :=
  if no_host_or_ip_range event then ret (Tuple4 ∅ false false [])
  else
    let event_host := str_host (host event) in
    let event_type := type event in
    let event_tags : gset string := ∅ in
    let dns_children : DnsChildren := [] in
    if no_host_or_ip_range event then
      event_whitelisted <- global_is_not_None "event_whitelisted" ;;
      event_blacklisted <- global_is_not_None "event_blacklisted" ;;
      ret (Tuple4 event_tags event_whitelisted event_blacklisted
             dns_children)
    else
      cached <- resolve_event_from_cache event_host event_tags ;;
      match cached with
      | Some r => ret r
      | None =>
          r <- run_resolve_event event_host event_type minimal ;;
          let '(event_tags, dns_children) := r in
          w <- get ;;
          set_event_cache
            (LRUCache.setitem event_host (event_tags, dns_children)
               (event_cache w)) ;;;
          ret (Tuple2 event_tags dns_children)
      end.

(** [[ips, rdtype].count(None)] *)
Definition count_None (ips : option (list string)) (rdtype : option string)
  : nat :=
  length (filter (fun b => b = true) [bool_decide (ips = None);
                                      bool_decide (rdtype = None)]).

Definition is_wildcard (query : string) (ips : option (list string))
    (rdtype : option string) : M World WildcardRdtypes :=
  if Nat.eqb (count_None ips rdtype) 1 then
    raise (ValueError "Both ips and rdtype must be specified")
  else if negb (is_dns_name (misc self) query) then ret []
  else if existsb (host_in_host (misc self) query) (wildcard_ignore self)
  then ret []
  else
    let query := clean_dns_record (misc self) query in
    if is_ip (misc self) (Some query) || negb (PyStr.contains_char "." query)
    then ret []
    else if is_domain (misc self) query then ret []
    else run_is_wildcard query ips rdtype.

(** [is_wildcard == True] and the truth value of [_is_wildcard] *)
Definition is_True (b : option bool) : bool :=
  match b with Some true => true | _ => false end.

(** The loop that tags the event from the per-type results. *)
Fixpoint tag_wildcard_rdtypes (wildcard_rdtypes : WildcardRdtypes)
    (event : Event) : Event :=
  match wildcard_rdtypes with
  | [] => event
  | (rdtype, (is_wildcard, wildcard_host)) :: rest =>
      let wildcard_tag := "error" in
      let '(event, wildcard_tag) :=
        if is_True is_wildcard
        then (add_tag "wildcard" event, "wildcard")
        else (event, wildcard_tag) in
      tag_wildcard_rdtypes rest
        (add_tag (PyStr.lower rdtype +:+ "-" +:+ wildcard_tag) event)
  end.

(** [set([c.upper() for c in event.dns_children])] *)
Definition resolved_rdtypes (event : Event) : list string :=
  map (fun kv => PyStr.upper kv.1) (dns_children event).

(** [set(wildcard_rdtypes)]: the keys of the dict *)
Definition wildcard_rdtypes_set (wildcard_rdtypes : WildcardRdtypes)
  : list string :=
  map fst wildcard_rdtypes.

Definition event_is_wildcard (wildcard_rdtypes : WildcardRdtypes)
    (event : Event) : bool :=
  match resolved_rdtypes event with
  | [] => false
  | resolved =>
      forallb (fun r => PyStr.mem r (wildcard_rdtypes_set wildcard_rdtypes))
        resolved
  end.

(** The [for ... break] loop choosing the wildcard parent. *)
Fixpoint pick_wildcard_parent (wildcard_parent : string)
    (wildcard_rdtypes : WildcardRdtypes) : string :=
  match wildcard_rdtypes with
  | [] => wildcard_parent
  | (rdtype, (_is_wildcard, _parent_domain)) :: rest =>
      if is_True _is_wildcard then _parent_domain
      else pick_wildcard_parent wildcard_parent rest
  end.

(** The block under [if wildcard_rdtypes:]: [Some d] when it executes
    [event.data = d], [None] when it assigns nothing. *)
Definition wildcard_event_modification (event_host : string)
    (wildcard_rdtypes : WildcardRdtypes) (event : Event) : option string :=
  if event_is_wildcard wildcard_rdtypes event then
    if PyStr.mem (type event) ["DNS_NAME"]
       && negb (PyStr.mem "_wildcard" (PyStr.split "." (data event)))
    then
      let wildcard_parent := parent_domain self event_host in
      let wildcard_parent :=
        pick_wildcard_parent wildcard_parent wildcard_rdtypes in
      let wildcard_data := "_wildcard." +:+ wildcard_parent in
      if negb (String.eqb wildcard_data (data event))
      then Some wildcard_data
      else None
    else None
  else None.

Definition get_event : M (Event * World) Event := fun s => (inr s.1, s).
Definition modify_event (f : Event -> Event) : M (Event * World) unit :=
  modify (fun s => (f s.1, s.2)).

(** Truth value of a dict or list: non-empty. *)
Definition nonempty {A} (l : list A) : bool :=
  match l with [] => false | _ => true end.

Definition handle_wildcard_event : M (Event * World) unit :=
  try_finally
    (event <- get_event ;;
     let event_host := str_host (host event) in
     wildcard_rdtypes <-
       (if negb (is_ip (misc self) (host event)) then
          wildcard_rdtypes <- lift_snd (is_wildcard event_host None None) ;;
          modify_event (tag_wildcard_rdtypes wildcard_rdtypes) ;;;
          ret (Some wildcard_rdtypes)
        else ret None) ;;
     event <- get_event ;;
     if negb (is_ip (misc self) (host event))
        && nonempty (dns_children event)
     then
       wildcard_rdtypes <- read_local "wildcard_rdtypes" wildcard_rdtypes ;;
       if nonempty wildcard_rdtypes then
         match wildcard_event_modification event_host wildcard_rdtypes
                 event with
         | Some wildcard_data => modify_event (set_data wildcard_data)
         | None => ret tt
         end
       else ret tt
     else ret tt)
    log_debug.

End Methods.

(** ** Readings of the code used in the statements *)

Section Readings.
Context (self : DNSHelper).

(** The tags one entry of the result contributes. *)
Definition entry_tags (kv : string * (option bool * string)) : list string :=
  if is_True kv.2.1
  then ["wildcard"; PyStr.lower kv.1 +:+ "-wildcard"]
  else [PyStr.lower kv.1 +:+ "-error"].

(** The five skip checks of [is_wildcard], in the order of the code. *)
Definition skipped (query : string) : bool :=
  negb (is_dns_name (misc self) query)
  || existsb (host_in_host (misc self) query) (wildcard_ignore self)
  || is_ip (misc self) (Some (clean_dns_record (misc self) query))
  || negb (PyStr.contains_char "." (clean_dns_record (misc self) query))
  || is_domain (misc self) (clean_dns_record (misc self) query).

(** What the rewrite block does to the event once the tags are on it. *)
Definition modify_wildcard_event (event_host : string)
    (wr : WildcardRdtypes) (e : Event) : Event :=
  if nonempty (dns_children e) && nonempty wr then
    match wildcard_event_modification self event_host wr e with
    | Some d => set_data d e
    | None => e
    end
  else e.

(** The first entry of the result that is classified wildcard. *)
Definition first_wildcard_classified (wr : WildcardRdtypes)
  : option (string * (option bool * string)) :=
  List.find (fun kv => bool_decide (kv.2.1 = Some true)) wr.

(** The wildcard parent in words: the parent reported by the first
    wildcard-classified entry, and the default when there is none. *)
Definition wildcard_parent_of (default : string) (wr : WildcardRdtypes)
  : string :=
  match first_wildcard_classified wr with
  | Some kv => kv.2.2
  | None => default
  end.

End Readings.

(** ** A concrete helper, for running the methods on inputs *)

Module Sample.

(** [".".join(labels)] *)
Fixpoint join_dot (labels : list string) : string :=
  match labels with
  | [] => ""
  | [l] => l
  | l :: ls => l +:+ "." +:+ join_dot ls
  end.

Fixpoint all_chars (p : ascii -> bool) (s : string) : bool :=
  match s with
  | EmptyString => true
  | String c s' => p c && all_chars p s'
  end.

Definition is_digit (c : ascii) : bool :=
  let n := nat_of_ascii c in (48 <=? n)%nat && (n <=? 57)%nat.

Definition is_name_char (c : ascii) : bool :=
  let n := nat_of_ascii c in
  is_digit c || ((97 <=? n)%nat && (n <=? 122)%nat)
  || ((65 <=? n)%nat && (n <=? 90)%nat)
  || Ascii.eqb c "-" || Ascii.eqb c "_" || Ascii.eqb c ".".

(** Modelled from the spec: [is_ip] of [..misc] is missing; the spec calls
    it a canonical IP-parse check.  Here: four dot-separated non-empty
    groups of digits. *)
Definition is_ip (h : option string) : bool :=
  match h with
  | None => false
  | Some s =>
      let groups := PyStr.split "." s in
      Nat.eqb (length groups) 4
      && forallb (fun g => PyStr.truthy g && all_chars is_digit g) groups
  end.

(** Modelled from the spec: [is_dns_name] of [..misc] is missing; the spec
    asks for a syntactically valid DNS name.  Here: non-empty labels of
    letters, digits, hyphen and underscore. *)
Definition is_dns_name (s : string) : bool :=
  all_chars is_name_char s && forallb PyStr.truthy (PyStr.split "." s).

(** Modelled from the spec: [host_in_host] of [..misc] is missing; the
    spec's suffix match holds when the hostname equals the ignored domain or
    is a subdomain of it. *)
Definition host_in_host (h d : string) : bool :=
  let hl := PyStr.split "." h in
  let dl := PyStr.split "." d in
  PyStr.truthy h && PyStr.truthy d
  && bool_decide (drop (length hl - length dl) hl = dl).

(** Modelled from the spec: [clean_dns_record] of [..misc] is missing; the
    spec's hostnames are lowercased and stripped of a trailing dot. *)
Definition clean_dns_record (s : string) : string :=
  let labels := PyStr.split "." (PyStr.lower s) in
  match reverse labels with
  | EmptyString :: (_ :: _) as rest => join_dot (reverse rest)
  | _ => join_dot labels
  end.

(** Modelled from the spec: [is_domain] of [..misc] is missing; the spec's
    bare registrable domain is taken to be a name of exactly two labels. *)
Definition is_domain (s : string) : bool :=
  Nat.eqb (length (PyStr.split "." s)) 2.

(** Modelled from the spec: [parent_domain] of the parent helper is
    missing; the glossary's parent is the name without its leftmost label,
    and a bare domain is its own parent. *)
Definition parent_domain (s : string) : string :=
  match PyStr.split "." s with
  | _ :: ((_ :: _ :: _) as rest) => join_dot rest
  | _ => s
  end.


Definition sample_misc : Misc :=
  mkMisc is_ip is_domain is_dns_name host_in_host clean_dns_record.

(** A helper whose engine answers every request with the given values. *)
Definition helper (ignore : list string)
    (resolved : string + (gset string * DnsChildren))
    (wildcards : string + WildcardRdtypes) : DNSHelper :=
  mkDNSHelper sample_misc ignore parent_domain
    (fun _ _ _ => resolved) (fun _ _ _ => wildcards).

Definition empty_world : World := mkWorld [] [].

Definition dns_name_event (name : string) (children : DnsChildren) : Event :=
  mkEvent (Some name) "DNS_NAME" name ∅ children.

End Sample.

(** ** The methods on concrete inputs *)

Module Runs.
Import Sample.

(** An engine that resolves [www.evilcorp.com] and finds no wildcard. *)
Definition resolving : DNSHelper :=
  helper [] (inr ({["in-scope"]}, [("A", ["93.184.216.34"])])) (inr []).

(** An engine whose wildcard request fails. *)
Definition failing : DNSHelper :=
  helper [] (inl "engine unreachable") (inl "engine unreachable").

(** An engine giving the answer of the docstring of [is_wildcard]:
    [{"A": (False, "evilcorp.com")}]. *)
Definition not_wildcard : DNSHelper :=
  helper [] (inl "unused") (inr [("A", (Some false, "evilcorp.com"))]).

(** An engine that classifies [A] as wildcard and [AAAA] as not. *)
Definition partial_wildcard : DNSHelper :=
  helper [] (inl "unused")
    (inr [("A", (Some true, "evilcorp.com"));
          ("AAAA", (Some false, "evilcorp.com"))]).

(** An engine whose first wildcard-classified type is the second entry. *)
Definition late_wildcard : DNSHelper :=
  helper [] (inl "unused")
    (inr [("A", (None, "dev.evilcorp.com"));
          ("AAAA", (Some true, "evilcorp.com"));
          ("TXT", (Some true, "com"))]).

(** A helper configured to ignore [evilcorp.com]. *)
Definition ignoring : DNSHelper :=
  helper ["evilcorp.com"] (inl "unused") (inl "unused").


(** An engine whose only answer is inconclusive. *)
Definition inconclusive : DNSHelper :=
  helper [] (inl "unused") (inr [("A", (None, "com"))]).

Definition www : Event := dns_name_event "www.evilcorp.com" [].

Definition www_a : Event :=
  dns_name_event "www.evilcorp.com" [("A", ["93.184.216.34"])].

Definition www_a_aaaa : Event :=
  dns_name_event "www.evilcorp.com"
    [("A", ["93.184.216.34"]); ("AAAA", ["2606:2800:220:1::1"])].

Definition www_dev_a_aaaa : Event :=
  dns_name_event "www.dev.evilcorp.com"
    [("a", ["93.184.216.34"]); ("AAAA", ["2606:2800:220:1::1"])].

End Runs.

(** ** Construction of the helper *)

Module Init.

(** [c.isspace()] on ASCII: tab to carriage return, the four separators
    and the space. *)
Definition is_space (c : ascii) : bool :=
  let n := nat_of_ascii c in
  ((9 <=? n)%nat && (n <=? 13)%nat) || ((28 <=? n)%nat && (n <=? 32)%nat).

(** [s.lstrip()] *)
Fixpoint lstrip (s : string) : string :=
  match s with
  | EmptyString => EmptyString
  | String c s' => if is_space c then lstrip s' else s
  end.

(** [s.rstrip()] *)
Fixpoint rstrip (s : string) : string :=
  match s with
  | EmptyString => EmptyString
  | String c s' =>
      match rstrip s' with
      | EmptyString => if is_space c then EmptyString else String c EmptyString
      | r => String c r
      end
  end.

(** [s.strip()] *)
Definition strip (s : string) : string := rstrip (lstrip s).

(** A string that is empty or starts with a character that is no space. *)
Definition no_leading_space (s : string) : Prop :=
  match s with
  | EmptyString => True
  | String c _ => is_space c = false
  end.

(** The keys of the configuration that [__init__] reads.  For the two
    numbers the outer [None] is an absent key and [Some None] a key set to
    [None]; for the ignore list [None] is a key that is absent or set to
    [None], which the code treats alike. *)
Record Config : Type := mkConfig {
  dns_timeout : option (option Z);
  max_dns_resolve_distance : option (option Z);
  dns_wildcard_ignore : option (list string)
}.

(** [self.timeout = self.config.get("dns_timeout", 5)]: the default
    stands in for an absent key only. *)
Definition timeout (config : Config) : option Z :=
  default (Some 5%Z) (dns_timeout config).

(** [self.max_dns_resolve_distance =
     self.config.get("max_dns_resolve_distance", 5)] *)
Definition init_max_dns_resolve_distance (config : Config) : option Z :=
  default (Some 5%Z) (max_dns_resolve_distance config).

(** The three statements that set [self.wildcard_ignore]. *)
Definition init_wildcard_ignore (config : Config) : list string :=
  let wildcard_ignore := dns_wildcard_ignore config in
  let wildcard_ignore :=
    match wildcard_ignore with
    | Some (d :: ds) => d :: ds
    | _ => []
    end in
  map (fun d => PyStr.lower (strip d)) wildcard_ignore.

(** [DNSHelper(parent_helper)]: the helper with its normalised ignore list
    and an empty event cache; the engine has received nothing yet. *)
Definition init (config : Config) (m : Misc) (parent : string -> string)
    (resolve_answers :
       string -> string -> bool -> string + (gset string * DnsChildren))
    (wildcard_answers :
       string -> option (list string) -> option string
       -> string + WildcardRdtypes)
  : DNSHelper * World :=
  (mkDNSHelper m (init_wildcard_ignore config) parent resolve_answers
     wildcard_answers,
   mkWorld [] []).

End Init.

(** ** Basic facts about the tagging loop and the cache *)

Section Facts.
Context (self : DNSHelper).

Lemma add_tag_host t e : host (add_tag t e) = host e.
Proof. reflexivity. Qed.

(** The tagging loop only touches the tags of the event. *)
Lemma tag_wildcard_rdtypes_frame wr : forall e,
  host (tag_wildcard_rdtypes wr e) = host e
  /\ type (tag_wildcard_rdtypes wr e) = type e
  /\ data (tag_wildcard_rdtypes wr e) = data e
  /\ dns_children (tag_wildcard_rdtypes wr e) = dns_children e.
Proof.
  induction wr as [|[rdtype [b p]] rest IH]; intros e; simpl; [done|].
  destruct (is_True b); simpl; destruct (IH (add_tag (PyStr.lower rdtype +:+ "-" +:+ "wildcard") (add_tag "wildcard" e))) as (?&?&?&?);
    destruct (IH (add_tag (PyStr.lower rdtype +:+ "-" +:+ "error") e)) as (?&?&?&?); done.
Qed.

Lemma tag_wildcard_rdtypes_tags wr : forall e,
  tags (tag_wildcard_rdtypes wr e)
  = tags e ∪ list_to_set (concat (map entry_tags wr)).
Proof.
  induction wr as [|[rdtype [b p]] rest IH]; intros e; simpl.
  - set_solver.
  - unfold entry_tags at 1; simpl.
    destruct (is_True b); simpl; rewrite IH; simpl; set_solver.
Qed.

(** An entry that is not classified wildcard puts the error tag on the
    event, be it a confirmed [False] or an inconclusive [None]. *)
Lemma not_wildcard_entry_tagged_error wr e rdtype b p :
  (rdtype, (b, p)) ∈ wr ->
  b <> Some true ->
  PyStr.lower rdtype +:+ "-error" ∈ tags (tag_wildcard_rdtypes wr e).
Proof.
  intros Hin Hb. revert e.
  induction wr as [|[r [b' p']] rest IH]; intros e.
  - by apply not_elem_of_nil in Hin.
  - apply elem_of_cons in Hin as [[= <- <- <-]|Hin]; simpl.
    + replace (is_True b) with false by (by destruct b as [[|]|]).
      rewrite tag_wildcard_rdtypes_tags. set_solver.
    + destruct (is_True b'); by apply IH.
Qed.

(** *** [is_wildcard] *)

Lemma count_None_cases ips rdtype :
  count_None ips rdtype = 1
  <-> (ips = None /\ rdtype <> None) \/ (ips <> None /\ rdtype = None).
Proof.
  unfold count_None.
  destruct ips, rdtype; simpl; split; intros H;
    try discriminate; try (destruct H as [[? ?]|[? ?]]; congruence);
    try reflexivity; [right|left]; done.
Qed.

Lemma is_wildcard_usage_error query ips rdtype w :
  count_None ips rdtype = 1 ->
  is_wildcard self query ips rdtype w
  = (inl (ValueError "Both ips and rdtype must be specified"), w).
Proof. intros H. unfold is_wildcard. rewrite H. reflexivity. Qed.

Lemma is_wildcard_skipped query ips rdtype w :
  count_None ips rdtype <> 1 ->
  skipped self query = true ->
  is_wildcard self query ips rdtype w = (inr [], w).
Proof.
  intros Hc Hs. unfold is_wildcard.
  destruct (Nat.eqb_spec (count_None ips rdtype) 1) as [|_]; [done|].
  unfold skipped in Hs.
  destruct (is_dns_name (misc self) query); simpl in *; [|done].
  destruct (existsb _ _); simpl in *; [done|].
  destruct (is_ip _ _); simpl in *; [done|].
  destruct (PyStr.contains_char _ _); simpl in *; [|done].
  rewrite Hs. done.
Qed.

Lemma is_wildcard_delegates query ips rdtype w :
  count_None ips rdtype <> 1 ->
  skipped self query = false ->
  is_wildcard self query ips rdtype w
  = run_is_wildcard self (clean_dns_record (misc self) query) ips rdtype w.
Proof.
  intros Hc Hs. unfold is_wildcard.
  destruct (Nat.eqb_spec (count_None ips rdtype) 1) as [|_]; [done|].
  unfold skipped in Hs.
  destruct (is_dns_name (misc self) query); simpl in *; [|done].
  destruct (existsb _ _); simpl in *; [done|].
  destruct (is_ip _ _); simpl in *; [done|].
  destruct (PyStr.contains_char _ _); simpl in *; [|done].
  rewrite Hs. done.
Qed.

(** Called the way [handle_wildcard_event] calls it, [is_wildcard] fails
    only when the engine request fails. *)
Lemma is_wildcard_auto_error query w e w' :
  is_wildcard self query None None w = (inl e, w') ->
  exists msg, e = EngineError msg.
Proof.
  destruct (skipped self query) eqn:Hs.
  - rewrite is_wildcard_skipped; [discriminate| |done].
    vm_compute. discriminate.
  - rewrite is_wildcard_delegates; [| |done].
    + unfold run_is_wildcard.
      destruct (engine_is_wildcard _ _ _ _); intros [= <- <-]; eauto.
    + vm_compute. discriminate.
Qed.

(** *** [handle_wildcard_event] *)

Lemma handle_wildcard_event_outcome ev w :
  handle_wildcard_event self (ev, w) =
  if is_ip (misc self) (host ev) then (inr tt, (ev, w))
  else
    match is_wildcard self (str_host (host ev)) None None w with
    | (inl e, w') => (inl e, (ev, w'))
    | (inr wr, w') =>
        (inr tt,
         (modify_wildcard_event self (str_host (host ev)) wr
            (tag_wildcard_rdtypes wr ev), w'))
    end.
Proof.
  unfold handle_wildcard_event, try_finally, bind, get_event, log_debug,
    ret; simpl.
  destruct (is_ip (misc self) (host ev)) eqn:Hip; simpl.
  - rewrite Hip. reflexivity.
  - destruct (is_wildcard self (str_host (host ev)) None None w)
      as [[e|wr] w'] eqn:Hw; simpl; [reflexivity|].
    destruct (tag_wildcard_rdtypes_frame wr ev) as (Hh & _ & _ & Hc).
    unfold modify_wildcard_event. rewrite Hh, Hip, Hc. simpl.
    destruct (nonempty (dns_children ev)); simpl; [|reflexivity].
    destruct (nonempty wr); simpl; [|reflexivity].
    destruct (wildcard_event_modification _ _ _ _); reflexivity.
Qed.

(** *** [resolve_event] *)

Lemma lookup_setitem {V} k (v : V) c :
  LRUCache.lookup k (LRUCache.setitem k v c) = Some v.
Proof.
  unfold LRUCache.setitem.
  destruct (LRUCache.lookup k c); simpl; rewrite String.eqb_refl; done.
Qed.

Lemma resolve_event_short_circuit ev minimal w :
  no_host_or_ip_range ev = true ->
  resolve_event self ev minimal w = (inr (Tuple4 ∅ false false []), w).
Proof. intros H. unfold resolve_event. rewrite H. reflexivity. Qed.

(** Cache hit: the name [_event_whitelisted] is looked up and is bound
    nowhere, so the call ends in [NameError] before any engine request. *)
Lemma resolve_event_hit ev minimal w v :
  no_host_or_ip_range ev = false ->
  LRUCache.lookup (str_host (host ev)) (event_cache w) = Some v ->
  resolve_event self ev minimal w
  = (inl (NameError "_event_whitelisted"),
     mkWorld ((str_host (host ev), v)
                :: LRUCache.remove (str_host (host ev)) (event_cache w))
       (engine_calls w)).
Proof.
  intros Hn Hl. unfold resolve_event. rewrite Hn.
  unfold bind, resolve_event_from_cache, bind, get, LRUCache.getitem.
  rewrite Hl. destruct v as [t c]. reflexivity.
Qed.

(** Cache miss: one engine request; its answer is stored and returned as
    a pair. *)
Lemma resolve_event_miss ev minimal w :
  no_host_or_ip_range ev = false ->
  LRUCache.lookup (str_host (host ev)) (event_cache w) = None ->
  resolve_event self ev minimal w
  = let calls := CallResolveEvent (str_host (host ev)) (type ev) minimal
                   :: engine_calls w in
    match engine_resolve_event self (str_host (host ev)) (type ev) minimal
    with
    | inl msg => (inl (EngineError msg), mkWorld (event_cache w) calls)
    | inr (t, c) =>
        (inr (Tuple2 t c),
         mkWorld (LRUCache.setitem (str_host (host ev)) (t, c)
                    (event_cache w)) calls)
    end.
Proof.
  intros Hn Hl. unfold resolve_event. rewrite Hn.
  unfold bind, resolve_event_from_cache, bind, get, LRUCache.getitem.
  rewrite Hl. unfold ret, run_resolve_event.
  destruct (engine_resolve_event _ _ _ _) as [msg|[t c]]; reflexivity.
Qed.

(** Past the short circuit no return statement builds four components. *)
Lemma resolve_event_no_four ev minimal w t wl bl c :
  no_host_or_ip_range ev = false ->
  (resolve_event self ev minimal w).1 <> inr (Tuple4 t wl bl c).
Proof.
  intros Hn.
  destruct (LRUCache.lookup (str_host (host ev)) (event_cache w)) eqn:Hl.
  - erewrite resolve_event_hit by done. discriminate.
  - rewrite resolve_event_miss by done. simpl.
    destruct (engine_resolve_event _ _ _ _) as [msg|[? ?]]; discriminate.
Qed.

(** A call that returned leaves the host in the cache, whatever was
    evicted to make room. *)
Lemma resolve_event_caches ev minimal w r w' :
  no_host_or_ip_range ev = false ->
  resolve_event self ev minimal w = (inr r, w') ->
  exists t c, r = Tuple2 t c
    /\ LRUCache.lookup (str_host (host ev)) (event_cache w') = Some (t, c)
    /\ engine_calls w'
       = CallResolveEvent (str_host (host ev)) (type ev) minimal
           :: engine_calls w.
Proof.
  intros Hn.
  destruct (LRUCache.lookup (str_host (host ev)) (event_cache w)) eqn:Hl.
  - erewrite resolve_event_hit by done. discriminate.
  - rewrite resolve_event_miss by done. simpl.
    destruct (engine_resolve_event _ _ _ _) as [msg|[t c]]; [discriminate|].
    intros [= <- <-]. exists t, c. simpl.
    split; [done|]. split; [apply lookup_setitem|done].
Qed.

(** Two calls in a row: the second one finds the entry and fails on the
    unbound name, without a further engine request. *)
Lemma resolve_event_twice ev minimal w r w' :
  no_host_or_ip_range ev = false ->
  resolve_event self ev minimal w = (inr r, w') ->
  (resolve_event self ev minimal w').1
    = inl (NameError "_event_whitelisted")
  /\ engine_calls (resolve_event self ev minimal w').2 = engine_calls w'.
Proof.
  intros Hn H1.
  destruct (resolve_event_caches _ _ _ _ _ Hn H1) as (t & c & _ & Hl & _).
  erewrite resolve_event_hit by done. done.
Qed.

(** *** The rewrite block *)

Lemma mem_elem_of x l : PyStr.mem x l = true <-> x ∈ l.
Proof.
  unfold PyStr.mem. rewrite existsb_exists. split.
  - intros (y & Hy & Heq). apply String.eqb_eq in Heq. subst.
    by apply list_elem_of_In.
  - intros H. exists x. split; [by apply list_elem_of_In|].
    apply String.eqb_refl.
Qed.

(** The full-wildcard test of the code, as a proposition: the event has
    resolved record types and each of them is a key of the result. *)
Lemma event_is_wildcard_spec wr ev :
  event_is_wildcard wr ev = true
  <-> resolved_rdtypes ev <> []
      /\ forall r, r ∈ resolved_rdtypes ev -> r ∈ wildcard_rdtypes_set wr.
Proof.
  unfold event_is_wildcard.
  destruct (resolved_rdtypes ev) as [|r0 rs] eqn:Hr.
  - split; [discriminate|]. intros [H _]; done.
  - rewrite forallb_forall. split.
    + intros H. split; [done|]. intros r Hin.
      apply mem_elem_of, H. by apply list_elem_of_In.
    + intros [_ H] r Hin. apply mem_elem_of, H. by apply list_elem_of_In.
Qed.

Lemma event_is_wildcard_nonempty wr ev :
  event_is_wildcard wr ev = true ->
  nonempty (dns_children ev) = true /\ nonempty wr = true.
Proof.
  intros H. apply event_is_wildcard_spec in H as [Hne Hall].
  unfold resolved_rdtypes in *.
  destruct (dns_children ev) as [|kv rest]; [done|]. split; [done|].
  destruct wr; [|done].
  specialize (Hall (PyStr.upper kv.1)). simpl in Hall.
  exfalso. eapply not_elem_of_nil, Hall. left.
Qed.

Lemma event_is_wildcard_tagged wr wr' ev :
  event_is_wildcard wr (tag_wildcard_rdtypes wr' ev)
  = event_is_wildcard wr ev.
Proof.
  unfold event_is_wildcard, resolved_rdtypes.
  destruct (tag_wildcard_rdtypes_frame wr' ev) as (_ & _ & _ & ->). done.
Qed.

Lemma pick_wildcard_parent_first default wr :
  pick_wildcard_parent default wr = wildcard_parent_of default wr.
Proof.
  unfold wildcard_parent_of, first_wildcard_classified.
  induction wr as [|[rdtype [b p]] rest IH]; simpl; [done|].
  destruct b as [[|]|]; simpl; done.
Qed.

Lemma split_app_sep sep a p :
  PyStr.contains_char sep a = false ->
  PyStr.split sep (a +:+ String sep p) = a :: PyStr.split sep p.
Proof.
  induction a as [|c a IH]; simpl.
  - rewrite Ascii.eqb_refl. done.
  - intros H. apply orb_false_iff in H as [Hc Ha].
    rewrite Hc, (IH Ha). done.
Qed.

(** Data without a [_wildcard] label cannot be the rewritten data. *)
Lemma wildcard_data_differs d p :
  PyStr.mem "_wildcard" (PyStr.split "." d) = false ->
  "_wildcard." +:+ p <> d.
Proof.
  intros Hm <-.
  change ("_wildcard." +:+ p) with ("_wildcard" +:+ String "." p) in Hm.
  rewrite split_app_sep in Hm by reflexivity.
  simpl in Hm. discriminate.
Qed.

Lemma wildcard_event_modification_full event_host wr ev :
  event_is_wildcard wr ev = true ->
  type ev = "DNS_NAME" ->
  PyStr.mem "_wildcard" (PyStr.split "." (data ev)) = false ->
  wildcard_event_modification self event_host wr ev
  = let wildcard_data :=
      "_wildcard." +:+ wildcard_parent_of (parent_domain self event_host) wr
    in if decide (wildcard_data = data ev) then None else Some wildcard_data.
Proof.
  intros Hw Ht Hd. unfold wildcard_event_modification.
  rewrite Hw, Ht, Hd, pick_wildcard_parent_first.
  cbv zeta. generalize ("_wildcard." +:+
    wildcard_parent_of (parent_domain self event_host) wr).
  intros wildcard_data. cbn [PyStr.mem existsb orb andb negb].
  rewrite String.eqb_refl. cbn [orb andb negb].
  destruct (String.eqb_spec wildcard_data (data ev)), (decide _); done.
Qed.

Lemma set_data_same e d : d = data e -> set_data d e = e.
Proof. intros ->. destruct e. reflexivity. Qed.

End Facts.

(** ** Properties of [resolve_event] *)

(** C1: past the short circuit [resolve_event] is meant to hand back
    (tags, whitelisted, blacklisted, children).  On a cache miss for
    [www.evilcorp.com] (type [DNS_NAME]) the code asks the engine once,
    stores the answer and returns the pair (tags, children): two
    components, not four. *)
Theorem resolve_event_miss_returns_pair :
  resolve_event Runs.resolving Runs.www false Sample.empty_world
  = (inr (Tuple2 {["in-scope"]} [("A", ["93.184.216.34"])]),
     mkWorld
       [("www.evilcorp.com", ({["in-scope"]}, [("A", ["93.184.216.34"])]))]
       [CallResolveEvent "www.evilcorp.com" "DNS_NAME" false]).
Proof. vm_compute. reflexivity. Qed.

(** C3: two calls of [resolve_event] in a row for [www.evilcorp.com]: the
    first returns the engine's answer and caches it; the second finds the
    entry, sends nothing to the engine, and then fails with [NameError] on
    [_event_whitelisted] instead of returning the cached tags and
    children. *)
Theorem resolve_event_second_call_fails :
  let first := resolve_event Runs.resolving Runs.www false Sample.empty_world in
  let second := resolve_event Runs.resolving Runs.www false first.2 in
  first.1 = inr (Tuple2 {["in-scope"]} [("A", ["93.184.216.34"])])
  /\ second.1 = inl (NameError "_event_whitelisted")
  /\ engine_calls second.2 = engine_calls first.2.
Proof. vm_compute. repeat split; reflexivity. Qed.

(** ** Properties of [is_wildcard] *)




(** C7: when exactly one of [ips] and [rdtype] is given, [is_wildcard]
    raises [ValueError] and leaves the state as it was: no request reaches
    the engine. *)
Theorem is_wildcard_one_argument_missing (self : DNSHelper) (query : string)
    (ips : option (list string)) (rdtype : option string) (w : World) :
  (ips = None /\ rdtype <> None) \/ (ips <> None /\ rdtype = None) ->
  is_wildcard self query ips rdtype w
  = (inl (ValueError "Both ips and rdtype must be specified"), w).
Proof.
  intros H. apply is_wildcard_usage_error. by apply count_None_cases.
Qed.

Lemma is_wildcard_one_argument_missing_witness :
  is_wildcard Runs.resolving "www.evilcorp.com" (Some ["93.184.216.34"]) None
    Sample.empty_world
  = (inl (ValueError "Both ips and rdtype must be specified"),
     Sample.empty_world).
Proof.
  apply is_wildcard_one_argument_missing. right. split; [discriminate|done].
Defined.

(** C10: the check on [ips] and [rdtype] comes before every skip check.  A
    query that one of the skip checks would answer with the empty dict
    (not a DNS name, on the ignore list, an IP, without a dot, or a bare
    domain) gets the empty dict when both arguments are omitted, and
    [ValueError], not the empty dict, when exactly one of them is given. *)
Theorem is_wildcard_checks_arguments_first (self : DNSHelper)
    (query : string) (ips : option (list string)) (rdtype : option string)
    (w : World) :
  count_None ips rdtype = 1 ->
  is_dns_name (misc self) query = false
  \/ existsb (host_in_host (misc self) query) (wildcard_ignore self) = true
  \/ is_ip (misc self) (Some (clean_dns_record (misc self) query)) = true
  \/ PyStr.contains_char "." (clean_dns_record (misc self) query) = false
  \/ is_domain (misc self) (clean_dns_record (misc self) query) = true ->
  is_wildcard self query None None w = (inr [], w)
  /\ is_wildcard self query ips rdtype w
     = (inl (ValueError "Both ips and rdtype must be specified"), w)
  /\ (is_wildcard self query ips rdtype w).1 <> inr [].
Proof.
  intros Hc Hskip.
  assert (Hs : skipped self query = true).
  { unfold skipped.
    destruct Hskip as [ -> | [ -> | [ -> | [ -> | -> ]]]]; simpl;
      rewrite ?orb_true_r; reflexivity. }
  split; [|split].
  - apply is_wildcard_skipped; [|done]. vm_compute. discriminate.
  - by apply is_wildcard_usage_error.
  - rewrite is_wildcard_usage_error by done. discriminate.
Qed.

Lemma is_wildcard_checks_arguments_first_witness :
  is_wildcard Runs.ignoring "10.0.0.1" None None Sample.empty_world
  = (inr [], Sample.empty_world)
  /\ is_wildcard Runs.ignoring "10.0.0.1" None (Some "A") Sample.empty_world
     = (inl (ValueError "Both ips and rdtype must be specified"),
        Sample.empty_world)
  /\ (is_wildcard Runs.ignoring "10.0.0.1" None (Some "A")
        Sample.empty_world).1 <> inr [].
Proof.
  apply is_wildcard_checks_arguments_first.
  - reflexivity.
  - right. right. left. vm_compute. reflexivity.
Defined.

(** ** Properties of [handle_wildcard_event] *)

(** When the engine request made by [is_wildcard] fails,
    [handle_wildcard_event] raises that failure to its caller. *)
Lemma handle_wildcard_event_can_raise :
  (handle_wildcard_event Runs.failing (Runs.www_a_aaaa, Sample.empty_world)).1
  = inl (EngineError "engine unreachable").
Proof. vm_compute. reflexivity. Qed.

(** C2, amended: [handle_wildcard_event] has a [finally] clause and no
    handler: for a host that is not an IP, an exception raised by its call
    of [is_wildcard] on [str(event.host)] is raised to its caller. *)
Theorem handle_wildcard_event_propagates (self : DNSHelper) (ev : Event)
    (w w' : World) (e : exn) :
  is_ip (misc self) (host ev) = false ->
  is_wildcard self (str_host (host ev)) None None w = (inl e, w') ->
  (handle_wildcard_event self (ev, w)).1 = inl e.
Proof.
  intros Hip Hw. rewrite handle_wildcard_event_outcome, Hip, Hw. reflexivity.
Qed.

Lemma handle_wildcard_event_propagates_witness :
  (handle_wildcard_event Runs.failing (Runs.www, Sample.empty_world)).1
  = inl (EngineError "engine unreachable").
Proof.
  apply (handle_wildcard_event_propagates Runs.failing Runs.www
           Sample.empty_world
           (mkWorld [] [CallIsWildcard "www.evilcorp.com" None None]));
    reflexivity.
Defined.

(** C4: a record type whose result is a confirmed [False] is meant to get
    no tag.  With the answer [{"A": (False, "evilcorp.com")}] the event
    [www.evilcorp.com] leaves [handle_wildcard_event] tagged [a-error], the
    tag of an inconclusive check. *)
Theorem confirmed_false_is_tagged_error :
  let out := handle_wildcard_event Runs.not_wildcard
               (Runs.www_a_aaaa, Sample.empty_world) in
  out.1 = inr tt
  /\ tags out.2.1 = {["a-error"]}
  /\ data out.2.1 = "www.evilcorp.com".
Proof. vm_compute. repeat split; reflexivity. Qed.

(** C5: an event whose resolved types are A and AAAA, with only A
    classified wildcard, is meant to keep its data.  The code compares the
    resolved types with all the keys of the answer, whatever their
    classification: with AAAA answered [(False, "evilcorp.com")] the event
    counts as a full wildcard and its data becomes
    [_wildcard.evilcorp.com]. *)
Theorem partial_wildcard_is_rewritten :
  let out := handle_wildcard_event Runs.partial_wildcard
               (Runs.www_a_aaaa, Sample.empty_world) in
  out.1 = inr tt
  /\ data out.2.1 = "_wildcard.evilcorp.com"
  /\ tags out.2.1 = {["wildcard"; "a-wildcard"; "aaaa-error"]}.
Proof. vm_compute. repeat split; reflexivity. Qed.

(** C8: for a host that is not an IP whose wildcard check returned
    [wildcard_rdtypes], when the event is a full wildcard of type
    [DNS_NAME] whose data has no [_wildcard] label, the data of the event
    after the call is [_wildcard.<parent>], where the parent is the one
    reported by the first wildcard-classified entry of [wildcard_rdtypes]
    and, failing that, [parent_domain(event_host)].  The new data differs
    from the old, so the test before the assignment passes and the
    assignment is made; the rest of the event is as the tagging loop left
    it. *)
Theorem handle_wildcard_event_rewrite (self : DNSHelper) (ev : Event)
    (w w' : World) (wildcard_rdtypes : WildcardRdtypes) :
  is_ip (misc self) (host ev) = false ->
  is_wildcard self (str_host (host ev)) None None w
  = (inr wildcard_rdtypes, w') ->
  event_is_wildcard wildcard_rdtypes ev = true ->
  type ev = "DNS_NAME" ->
  PyStr.mem "_wildcard" (PyStr.split "." (data ev)) = false ->
  let event_host := str_host (host ev) in
  let wildcard_parent :=
    match first_wildcard_classified wildcard_rdtypes with
    | Some (_, (_, parent)) => parent
    | None => parent_domain self event_host
    end in
  let wildcard_data := "_wildcard." +:+ wildcard_parent in
  let out := handle_wildcard_event self (ev, w) in
  wildcard_data <> data ev
  /\ wildcard_event_modification self event_host wildcard_rdtypes
       (tag_wildcard_rdtypes wildcard_rdtypes ev)
     = Some wildcard_data
  /\ data out.2.1 = wildcard_data
  /\ out
     = (inr tt,
        (mkEvent (host ev) (type ev) wildcard_data
           (tags ev
            ∪ list_to_set (concat (map entry_tags wildcard_rdtypes)))
           (dns_children ev),
         w')).
Proof.
  intros Hip Hw Hfull Hty Hlabel event_host wildcard_parent wildcard_data out.
  destruct (tag_wildcard_rdtypes_frame wildcard_rdtypes ev)
    as (Hh & Ht & Hd & Hc).
  pose proof (tag_wildcard_rdtypes_tags wildcard_rdtypes ev) as Htags.
  assert (Hp : wildcard_parent
               = wildcard_parent_of (parent_domain self event_host)
                   wildcard_rdtypes).
  { unfold wildcard_parent, wildcard_parent_of.
    destruct (first_wildcard_classified wildcard_rdtypes)
      as [[? [? ?]]|]; reflexivity. }
  assert (Hdiff : wildcard_data <> data ev)
    by (by apply wildcard_data_differs).
  assert (Hmod : wildcard_event_modification self event_host wildcard_rdtypes
                   (tag_wildcard_rdtypes wildcard_rdtypes ev)
                 = Some wildcard_data).
  { rewrite wildcard_event_modification_full;
      rewrite ?event_is_wildcard_tagged, ?Ht, ?Hd; try done.
    cbv zeta. fold event_host. rewrite <- Hp. fold wildcard_data.
    by destruct (decide (wildcard_data = data ev)). }
  assert (Hout : out
                 = (inr tt,
                    (mkEvent (host ev) (type ev) wildcard_data
                       (tags ev
                        ∪ list_to_set
                            (concat (map entry_tags wildcard_rdtypes)))
                       (dns_children ev),
                     w'))).
  { unfold out. rewrite handle_wildcard_event_outcome, Hip, Hw.
    unfold modify_wildcard_event. fold event_host.
    destruct (event_is_wildcard_nonempty wildcard_rdtypes ev Hfull)
      as [Hn1 Hn2].
    rewrite Hc, Hn1, Hn2. cbn [andb]. rewrite Hmod.
    unfold set_data. by rewrite Hh, Ht, Hc, Htags. }
  split; [exact Hdiff|]. split; [exact Hmod|].
  split; [|exact Hout]. by rewrite Hout.
Qed.

Lemma handle_wildcard_event_rewrite_witness :
  handle_wildcard_event Runs.late_wildcard
    (Runs.www_dev_a_aaaa, Sample.empty_world)
  = (inr tt,
     (mkEvent (Some "www.dev.evilcorp.com") "DNS_NAME"
        "_wildcard.evilcorp.com"
        {["a-error"; "wildcard"; "aaaa-wildcard"; "txt-wildcard"]}
        [("a", ["93.184.216.34"]); ("AAAA", ["2606:2800:220:1::1"])],
      mkWorld [] [CallIsWildcard "www.dev.evilcorp.com" None None]))
  /\ handle_wildcard_event Runs.inconclusive
       (Runs.www_a, Sample.empty_world)
     = (inr tt,
        (mkEvent (Some "www.evilcorp.com") "DNS_NAME"
           "_wildcard.evilcorp.com" {["a-error"]}
           [("A", ["93.184.216.34"])],
         mkWorld [] [CallIsWildcard "www.evilcorp.com" None None])).
Proof.
  split.
  - exact (proj2 (proj2 (proj2
      (handle_wildcard_event_rewrite Runs.late_wildcard Runs.www_dev_a_aaaa
         Sample.empty_world
         (mkWorld [] [CallIsWildcard "www.dev.evilcorp.com" None None])
         [("A", (None, "dev.evilcorp.com"));
          ("AAAA", (Some true, "evilcorp.com"));
          ("TXT", (Some true, "com"))]
         eq_refl eq_refl eq_refl eq_refl eq_refl)))).
  - exact (proj2 (proj2 (proj2
      (handle_wildcard_event_rewrite Runs.inconclusive Runs.www_a
         Sample.empty_world
         (mkWorld [] [CallIsWildcard "www.evilcorp.com" None None])
         [("A", (None, "com"))]
         eq_refl eq_refl eq_refl eq_refl eq_refl)))).
Defined.

(** C9: [handle_wildcard_event] never fails on an unbound local variable:
    the rewrite block reads [wildcard_rdtypes] under the same test on
    [event.host] under which it was assigned, and the tagging in between
    leaves the host alone. *)
Theorem handle_wildcard_event_no_unbound_local (self : DNSHelper)
    (ev : Event) (w : World) (name : string) :
  (handle_wildcard_event self (ev, w)).1 <> inl (UnboundLocalError name).
Proof.
  rewrite handle_wildcard_event_outcome.
  destruct (is_ip (misc self) (host ev)); [discriminate|].
  destruct (is_wildcard self (str_host (host ev)) None None w)
    as [[e|wr] w'] eqn:Hw; [|discriminate].
  apply is_wildcard_auto_error in Hw as [msg ->]. discriminate.
Qed.


(** ** The event cache across calls of [resolve_event] *)

Section CacheFacts.
Context {V : Type}.
Implicit Types (c : list (string * V)) (k : string) (v : V).

Lemma maxsize_pred : LRUCache.maxsize - 1 = S (LRUCache.maxsize - 2).
Proof. unfold LRUCache.maxsize. lia. Qed.

Local Opaque LRUCache.maxsize.

Lemma lookup_remove_ne k k' c :
  k' <> k -> LRUCache.lookup k' (LRUCache.remove k c) = LRUCache.lookup k' c.
Proof.
  intros Hne. unfold LRUCache.remove.
  induction c as [|[k0 v0] c IH]; [done|].
  rewrite filter_cons. simpl.
  destruct (decide (k0 ≠ k)) as [H0|H0]; simpl.
  - by rewrite IH.
  - apply dec_stable in H0. subst k0.
    destruct (String.eqb_spec k k'); [congruence|done].
Qed.

Lemma lookup_take_prefix k n c :
  LRUCache.lookup k (take n c) = LRUCache.lookup k c
  \/ LRUCache.lookup k (take n c) = None.
Proof.
  revert n. induction c as [|[k0 v0] c IH]; intros [|n]; simpl; auto.
  destruct (String.eqb k0 k); auto.
Qed.

(** What storing under [k] does to another key [k']: its value stays, or
    the entry is evicted; it stays whenever the cache had room. *)
Lemma lookup_setitem_ne k k' v c :
  k' <> k ->
  (LRUCache.lookup k' (LRUCache.setitem k v c) = LRUCache.lookup k' c
   \/ LRUCache.lookup k' (LRUCache.setitem k v c) = None)
  /\ (length c < LRUCache.maxsize ->
      LRUCache.lookup k' (LRUCache.setitem k v c) = LRUCache.lookup k' c).
Proof.
  intros Hne. unfold LRUCache.setitem.
  assert (Hkk : String.eqb k k' = false) by (apply String.eqb_neq; congruence).
  destruct (LRUCache.lookup k c) as [v0|]; simpl; rewrite Hkk.
  - rewrite lookup_remove_ne by done. auto.
  - split; [apply lookup_take_prefix|].
    intros Hlt. rewrite take_ge by lia. done.
Qed.

End CacheFacts.

Section ResolveEventFacts.
Context (self : DNSHelper).
Local Opaque LRUCache.maxsize.

Lemma no_host_or_ip_range_true ev :
  no_host_or_ip_range ev = true
  <-> host ev = None \/ host ev = Some "" \/ type ev = "IP_RANGE".
Proof.
  unfold no_host_or_ip_range, PyStr.mem. simpl. rewrite orb_false_r.
  rewrite orb_true_iff, String.eqb_eq, negb_true_iff.
  destruct (host ev) as [[|a s]|]; simpl; split; intros H; try tauto;
    try (destruct H as [H|H]; [discriminate|tauto]);
    destruct H as [H|[H|H]]; try discriminate; tauto.
Qed.

Lemma no_host_or_ip_range_false ev :
  no_host_or_ip_range ev = false
  <-> host_truthy (host ev) = true /\ type ev <> "IP_RANGE".
Proof.
  unfold no_host_or_ip_range, PyStr.mem. simpl. rewrite orb_false_r.
  rewrite orb_false_iff, negb_false_iff, String.eqb_neq. tauto.
Qed.

(** The state a call leaves behind, by cases. *)
Lemma resolve_event_state ev minimal w :
  (resolve_event self ev minimal w).2
  = if no_host_or_ip_range ev then w
    else
      let h := str_host (host ev) in
      let calls := CallResolveEvent h (type ev) minimal :: engine_calls w in
      match LRUCache.lookup h (event_cache w) with
      | Some v =>
          mkWorld ((h, v) :: LRUCache.remove h (event_cache w)) (engine_calls w)
      | None =>
          match engine_resolve_event self h (type ev) minimal with
          | inl _ => mkWorld (event_cache w) calls
          | inr r => mkWorld (LRUCache.setitem h r (event_cache w)) calls
          end
      end.
Proof.
  destruct (no_host_or_ip_range ev) eqn:Hn.
  - by rewrite resolve_event_short_circuit.
  - cbv zeta.
    destruct (LRUCache.lookup (str_host (host ev)) (event_cache w)) eqn:Hl.
    + by erewrite resolve_event_hit.
    + rewrite resolve_event_miss by done. cbv zeta.
      destruct (engine_resolve_event _ _ _ _) as [msg|[t c]]; reflexivity.
Qed.

(** A call that returned past the short circuit has put its host at the
    head of the cache. *)
Lemma resolve_event_head ev minimal w r w' :
  no_host_or_ip_range ev = false ->
  resolve_event self ev minimal w = (inr r, w') ->
  exists v rest, event_cache w' = (str_host (host ev), v) :: rest.
Proof.
  intros Hn.
  destruct (LRUCache.lookup (str_host (host ev)) (event_cache w)) eqn:Hl.
  - erewrite resolve_event_hit by done. discriminate.
  - rewrite resolve_event_miss by done. cbv zeta.
    destruct (engine_resolve_event _ _ _ _) as [msg|[t c]]; [discriminate|].
    intros [= <- <-]. unfold LRUCache.setitem. rewrite Hl. simpl. eauto.
Qed.

End ResolveEventFacts.

(** X1: an event without a host (absent or empty) or of type [IP_RANGE]
    gets empty tags, [False], [False] and empty children at once: the cache
    and the engine are left alone. *)
Theorem resolve_event_without_host (self : DNSHelper) (ev : Event)
    (minimal : bool) (w : World) :
  host ev = None \/ host ev = Some "" \/ type ev = "IP_RANGE" ->
  resolve_event self ev minimal w = (inr (Tuple4 ∅ false false []), w).
Proof.
  intros H. apply resolve_event_short_circuit.
  by apply no_host_or_ip_range_true.
Qed.

Lemma resolve_event_without_host_witness :
  resolve_event Runs.resolving
    (mkEvent (Some "10.0.0.0/8") "IP_RANGE" "10.0.0.0/8" ∅ []) true
    Sample.empty_world
  = (inr (Tuple4 ∅ false false []), Sample.empty_world).
Proof.
  apply resolve_event_without_host. right. right. reflexivity.
Defined.

(** X2: a failed engine request is not cached.  On a cache miss where the
    engine raises, [resolve_event] raises the same failure and leaves the
    cache as it was, so the next call for the host asks the engine again. *)
Theorem resolve_event_failure_not_cached (self : DNSHelper) (ev : Event)
    (minimal : bool) (w : World) (msg : string) :
  host_truthy (host ev) = true ->
  type ev <> "IP_RANGE" ->
  LRUCache.lookup (str_host (host ev)) (event_cache w) = None ->
  engine_resolve_event self (str_host (host ev)) (type ev) minimal = inl msg ->
  let call := CallResolveEvent (str_host (host ev)) (type ev) minimal in
  let w1 := mkWorld (event_cache w) (call :: engine_calls w) in
  let w2 := mkWorld (event_cache w) (call :: call :: engine_calls w) in
  resolve_event self ev minimal w = (inl (EngineError msg), w1)
  /\ resolve_event self ev minimal w1 = (inl (EngineError msg), w2).
Proof.
  intros Hh Ht Hl He call w1 w2.
  assert (Hn : no_host_or_ip_range ev = false)
    by by apply no_host_or_ip_range_false.
  split; rewrite resolve_event_miss by done; cbv zeta; rewrite He; done.
Qed.

Lemma resolve_event_failure_not_cached_witness :
  let call := CallResolveEvent "www.evilcorp.com" "DNS_NAME" false in
  resolve_event Runs.failing Runs.www false Sample.empty_world
  = (inl (EngineError "engine unreachable"), mkWorld [] [call])
  /\ resolve_event Runs.failing Runs.www false (mkWorld [] [call])
     = (inl (EngineError "engine unreachable"), mkWorld [] [call; call]).
Proof.
  apply (resolve_event_failure_not_cached Runs.failing Runs.www false
           Sample.empty_world "engine unreachable");
    [reflexivity|discriminate|reflexivity|reflexivity].
Defined.

(** X3: [resolve_event] sends the engine a request exactly on a cache miss
    past the short circuit, and then a single one, for
    [(str(event.host), event.type, minimal)]. *)
Theorem resolve_event_engine_requests (self : DNSHelper) (ev : Event)
    (minimal : bool) (w : World) :
  engine_calls (resolve_event self ev minimal w).2
  = if no_host_or_ip_range ev then engine_calls w
    else match LRUCache.lookup (str_host (host ev)) (event_cache w) with
         | Some _ => engine_calls w
         | None =>
             CallResolveEvent (str_host (host ev)) (type ev) minimal
               :: engine_calls w
         end.
Proof.
  rewrite resolve_event_state.
  destruct (no_host_or_ip_range ev); [reflexivity|]. cbv zeta.
  destruct (LRUCache.lookup _ _); [reflexivity|].
  destruct (engine_resolve_event _ _ _ _); reflexivity.
Qed.

(** X4: [resolve_event] raises [NameError] exactly when it gets past the
    short circuit and finds the host in the cache, and the name is then
    [_event_whitelisted]: the names read under the second test on
    [event.host] and [event.type] are never reached. *)
Theorem resolve_event_name_error (self : DNSHelper) (ev : Event)
    (minimal : bool) (w : World) (name : string) :
  (resolve_event self ev minimal w).1 = inl (NameError name)
  <-> name = "_event_whitelisted"
      /\ no_host_or_ip_range ev = false
      /\ is_Some (LRUCache.lookup (str_host (host ev)) (event_cache w)).
Proof.
  destruct (no_host_or_ip_range ev) eqn:Hn.
  - rewrite resolve_event_short_circuit by done.
    split; [discriminate|]. intros (_ & ? & _); discriminate.
  - destruct (LRUCache.lookup (str_host (host ev)) (event_cache w)) eqn:Hl.
    + erewrite resolve_event_hit by done. simpl. split.
      * intros [= <-]. eauto.
      * intros (-> & _). reflexivity.
    + rewrite resolve_event_miss by done. cbv zeta. split.
      * destruct (engine_resolve_event _ _ _ _) as [msg|[t c]]; discriminate.
      * intros (_ & _ & [? ?]). discriminate.
Qed.

(** X6: a call for one host never changes what is cached for another
    host: the other entry keeps its value or is evicted, and it is kept
    whenever the cache was not full. *)
Theorem resolve_event_other_hosts (self : DNSHelper) (ev : Event)
    (minimal : bool) (w : World) (k : string) :
  k <> str_host (host ev) ->
  let after := event_cache (resolve_event self ev minimal w).2 in
  (LRUCache.lookup k after = LRUCache.lookup k (event_cache w)
   \/ LRUCache.lookup k after = None)
  /\ (length (event_cache w) < LRUCache.maxsize ->
      LRUCache.lookup k after = LRUCache.lookup k (event_cache w)).
Proof.
  intros Hk after. unfold after. rewrite resolve_event_state.
  destruct (no_host_or_ip_range ev); [auto|]. cbv zeta.
  destruct (LRUCache.lookup (str_host (host ev)) (event_cache w)) eqn:Hl.
  - cbn [LRUCache.lookup event_cache].
    destruct (String.eqb_spec (str_host (host ev)) k); [congruence|].
    rewrite lookup_remove_ne by done. auto.
  - destruct (engine_resolve_event _ _ _ _); cbn [event_cache]; [auto|].
    by apply lookup_setitem_ne.
Qed.

Lemma resolve_event_other_hosts_witness :
  let after :=
    event_cache
      (resolve_event Runs.resolving Runs.www false
         (mkWorld [("mail.evilcorp.com", ({["in-scope"]}, []))] [])).2 in
  (LRUCache.lookup "mail.evilcorp.com" after = Some ({["in-scope"]}, [])
   \/ LRUCache.lookup "mail.evilcorp.com" after = None)
  /\ (1 < LRUCache.maxsize ->
      LRUCache.lookup "mail.evilcorp.com" after = Some ({["in-scope"]}, [])).
Proof.
  apply (resolve_event_other_hosts Runs.resolving Runs.www false
           (mkWorld [("mail.evilcorp.com", ({["in-scope"]}, []))] [])
           "mail.evilcorp.com").
  discriminate.
Defined.

(** X7: what a call has cached for its host is still there after the next
    call, when that one is for a different host: the most recently used
    entry is never the one evicted. *)
Theorem resolve_event_entry_survives_next (self : DNSHelper)
    (ev ev' : Event) (minimal minimal' : bool) (w w' : World)
    (t : gset string) (c : DnsChildren) :
  host_truthy (host ev) = true ->
  type ev <> "IP_RANGE" ->
  resolve_event self ev minimal w = (inr (Tuple2 t c), w') ->
  str_host (host ev') <> str_host (host ev) ->
  LRUCache.lookup (str_host (host ev))
    (event_cache (resolve_event self ev' minimal' w').2)
  = Some (t, c).
Proof.
  intros Hh Hty Hcall Hne.
  assert (Hn : no_host_or_ip_range ev = false)
    by by apply no_host_or_ip_range_false.
  destruct (resolve_event_caches self _ _ _ _ _ Hn Hcall)
    as (t0 & c0 & [= <- <-] & Hl & _).
  destruct (resolve_event_head self _ _ _ _ _ Hn Hcall) as (v & rest & Hc).
  rewrite resolve_event_state.
  destruct (no_host_or_ip_range ev'); [done|]. cbv zeta.
  destruct (LRUCache.lookup (str_host (host ev')) (event_cache w')) eqn:Hl'.
  - cbn [LRUCache.lookup event_cache].
    destruct (String.eqb_spec (str_host (host ev')) (str_host (host ev)));
      [congruence|].
    rewrite lookup_remove_ne by congruence. done.
  - destruct (engine_resolve_event _ _ _ _); [done|].
    cbn [event_cache]. unfold LRUCache.setitem. rewrite Hl'.
    cbn [LRUCache.lookup].
    destruct (String.eqb_spec (str_host (host ev')) (str_host (host ev)));
      [congruence|].
    rewrite maxsize_pred. rewrite Hc in Hl |- *.
    cbn [take LRUCache.lookup] in Hl |- *.
    rewrite String.eqb_refl in Hl |- *. exact Hl.
Qed.

Lemma resolve_event_entry_survives_next_witness :
  LRUCache.lookup "www.evilcorp.com"
    (event_cache
       (resolve_event Runs.resolving
          (Sample.dns_name_event "mail.evilcorp.com" []) false
          (resolve_event Runs.resolving Runs.www false
             Sample.empty_world).2).2)
  = Some ({["in-scope"]}, [("A", ["93.184.216.34"])]).
Proof.
  apply (resolve_event_entry_survives_next Runs.resolving Runs.www
           (Sample.dns_name_event "mail.evilcorp.com" []) false false
           Sample.empty_world);
    [reflexivity|discriminate|vm_compute; reflexivity|discriminate].
Defined.

(** ** More on [is_wildcard] *)

(** X8: when [ips] and [rdtype] are both given or both omitted and no skip
    check fires, [is_wildcard] sends the engine one request, for the
    cleaned query with [ips] and [rdtype] as given, and hands back the
    engine's answer, or raises the engine's failure. *)
Theorem is_wildcard_asks_engine (self : DNSHelper) (query : string)
    (ips : option (list string)) (rdtype : option string) (w : World) :
  (ips = None <-> rdtype = None) ->
  skipped self query = false ->
  let cleaned := clean_dns_record (misc self) query in
  is_wildcard self query ips rdtype w
  = (match engine_is_wildcard self cleaned ips rdtype with
     | inl msg => inl (EngineError msg)
     | inr answer => inr answer
     end,
     mkWorld (event_cache w)
       (CallIsWildcard cleaned ips rdtype :: engine_calls w)).
Proof.
  intros Hboth Hs cleaned.
  rewrite is_wildcard_delegates; [| |done].
  - unfold run_is_wildcard. fold cleaned.
    destruct (engine_is_wildcard self cleaned ips rdtype); reflexivity.
  - intros H1. apply count_None_cases in H1. tauto.
Qed.

Lemma is_wildcard_asks_engine_witness :
  is_wildcard Runs.partial_wildcard "WWW.EvilCorp.com" (Some ["93.184.216.34"])
    (Some "A") Sample.empty_world
  = (inr [("A", (Some true, "evilcorp.com"));
          ("AAAA", (Some false, "evilcorp.com"))],
     mkWorld []
       [CallIsWildcard "www.evilcorp.com" (Some ["93.184.216.34"])
          (Some "A")]).
Proof.
  apply (is_wildcard_asks_engine Runs.partial_wildcard "WWW.EvilCorp.com"
           (Some ["93.184.216.34"]) (Some "A") Sample.empty_world).
  - split; discriminate.
  - vm_compute. reflexivity.
Defined.

(** X9: [is_wildcard] never touches the event cache, and the requests it
    sends are known from its arguments alone: none when the argument check
    or a skip check fires, one for the cleaned query otherwise. *)
Theorem is_wildcard_effects (self : DNSHelper) (query : string)
    (ips : option (list string)) (rdtype : option string) (w : World) :
  let w' := (is_wildcard self query ips rdtype w).2 in
  event_cache w' = event_cache w
  /\ engine_calls w'
     = if Nat.eqb (count_None ips rdtype) 1 || skipped self query
       then engine_calls w
       else CallIsWildcard (clean_dns_record (misc self) query) ips rdtype
              :: engine_calls w.
Proof.
  cbv zeta.
  destruct (Nat.eqb_spec (count_None ips rdtype) 1) as [H1|H1]; simpl.
  - rewrite is_wildcard_usage_error by done. done.
  - destruct (skipped self query) eqn:Hs.
    + rewrite is_wildcard_skipped by done. done.
    + rewrite is_wildcard_delegates by done. unfold run_is_wildcard.
      destruct (engine_is_wildcard _ _ _ _); done.
Qed.

(** ** More on [handle_wildcard_event] *)

Section WildcardEventFacts.
Context (self : DNSHelper).

(** The rewrite block changes nothing but the data. *)
Lemma modify_wildcard_event_frame event_host wr e :
  host (modify_wildcard_event self event_host wr e) = host e
  /\ type (modify_wildcard_event self event_host wr e) = type e
  /\ tags (modify_wildcard_event self event_host wr e) = tags e
  /\ dns_children (modify_wildcard_event self event_host wr e)
     = dns_children e.
Proof.
  unfold modify_wildcard_event.
  destruct (nonempty (dns_children e) && nonempty wr); [|done].
  destruct (wildcard_event_modification self event_host wr e); done.
Qed.

(** When it assigns, every condition of the code held. *)
Lemma wildcard_event_modification_Some event_host wr e d :
  wildcard_event_modification self event_host wr e = Some d ->
  event_is_wildcard wr e = true
  /\ type e = "DNS_NAME"
  /\ PyStr.mem "_wildcard" (PyStr.split "." (data e)) = false
  /\ d = "_wildcard." +:+
         wildcard_parent_of (parent_domain self event_host) wr.
Proof.
  unfold wildcard_event_modification.
  destruct (event_is_wildcard wr e); [|discriminate].
  destruct (PyStr.mem (type e) ["DNS_NAME"]) eqn:Ht; [|discriminate].
  destruct (PyStr.mem "_wildcard" _); [discriminate|]. simpl.
  rewrite pick_wildcard_parent_first.
  destruct (negb _); [|discriminate]. intros [= <-].
  repeat split; try done.
  unfold PyStr.mem in Ht. simpl in Ht. rewrite orb_false_r in Ht.
  by apply String.eqb_eq in Ht.
Qed.

Lemma modify_wildcard_event_data event_host wr e :
  data (modify_wildcard_event self event_host wr e) = data e
  \/ (event_is_wildcard wr e = true
      /\ type e = "DNS_NAME"
      /\ PyStr.mem "_wildcard" (PyStr.split "." (data e)) = false
      /\ data (modify_wildcard_event self event_host wr e)
         = "_wildcard." +:+
           wildcard_parent_of (parent_domain self event_host) wr).
Proof.
  unfold modify_wildcard_event.
  destruct (nonempty (dns_children e) && nonempty wr); [|by left].
  destruct (wildcard_event_modification self event_host wr e) as [d|] eqn:Hm;
    [|by left].
  right. apply wildcard_event_modification_Some in Hm as (?&?&?&->). done.
Qed.

Lemma contains_char_app c a b :
  PyStr.contains_char c (a +:+ b)
  = PyStr.contains_char c a || PyStr.contains_char c b.
Proof.
  induction a as [|x a IH]; simpl; [done|]. by rewrite IH, orb_assoc.
Qed.

(** Only an entry classified wildcard contributes the tag [wildcard]. *)
Lemma wildcard_in_entry_tags kv :
  "wildcard" ∈ entry_tags kv <-> kv.2.1 = Some true.
Proof.
  unfold entry_tags. destruct kv as [r [[[|]|] p]]; simpl.
  - split; [done|]. intros _. left.
  - split; [|done]. intros H. apply list_elem_of_singleton in H.
    apply (f_equal (PyStr.contains_char "-")) in H.
    rewrite contains_char_app in H. simpl in H.
    rewrite orb_true_r in H. discriminate.
  - split; [|done]. intros H. apply list_elem_of_singleton in H.
    apply (f_equal (PyStr.contains_char "-")) in H.
    rewrite contains_char_app in H. simpl in H.
    rewrite orb_true_r in H. discriminate.
Qed.


End WildcardEventFacts.

(** X10: for an event whose host is an IP, [handle_wildcard_event]
    returns at once: no tag, no rewrite, nothing sent to the engine. *)
Theorem handle_wildcard_event_ip_host (self : DNSHelper) (ev : Event)
    (w : World) :
  is_ip (misc self) (host ev) = true ->
  handle_wildcard_event self (ev, w) = (inr tt, (ev, w)).
Proof. intros H. rewrite handle_wildcard_event_outcome, H. reflexivity. Qed.

Lemma handle_wildcard_event_ip_host_witness :
  let ev := mkEvent (Some "93.184.216.34") "IP_ADDRESS" "93.184.216.34" ∅
              [("PTR", ["www.evilcorp.com"])] in
  handle_wildcard_event Runs.late_wildcard (ev, Sample.empty_world)
  = (inr tt, (ev, Sample.empty_world)).
Proof.
  apply (handle_wildcard_event_ip_host Runs.late_wildcard). reflexivity.
Defined.

(** X11: when [handle_wildcard_event] raises, the event is exactly as it
    was: no tag has been added and the data is untouched. *)
Theorem handle_wildcard_event_failure_keeps_event (self : DNSHelper)
    (ev : Event) (w : World) (e : exn) :
  (handle_wildcard_event self (ev, w)).1 = inl e ->
  (handle_wildcard_event self (ev, w)).2.1 = ev.
Proof.
  rewrite handle_wildcard_event_outcome.
  destruct (is_ip (misc self) (host ev)); [discriminate|].
  destruct (is_wildcard self (str_host (host ev)) None None w) as [[e'|wr] w'];
    [reflexivity|discriminate].
Qed.

Lemma handle_wildcard_event_failure_keeps_event_witness :
  (handle_wildcard_event Runs.failing
     (Runs.www_a_aaaa, Sample.empty_world)).2.1
  = Runs.www_a_aaaa.
Proof.
  apply (handle_wildcard_event_failure_keeps_event Runs.failing
           Runs.www_a_aaaa Sample.empty_world
           (EngineError "engine unreachable")).
  vm_compute. reflexivity.
Defined.

(** X13: [handle_wildcard_event] leaves the data alone unless the event
    has type [DNS_NAME], has DNS children, has no [_wildcard] label in its
    data and its host is not an IP. *)
Theorem handle_wildcard_event_keeps_data (self : DNSHelper) (ev : Event)
    (w : World) :
  type ev <> "DNS_NAME"
  \/ dns_children ev = []
  \/ PyStr.mem "_wildcard" (PyStr.split "." (data ev)) = true
  \/ is_ip (misc self) (host ev) = true ->
  data (handle_wildcard_event self (ev, w)).2.1 = data ev.
Proof.
  intros Hcond. rewrite handle_wildcard_event_outcome.
  destruct (is_ip (misc self) (host ev)) eqn:Hip; [done|].
  destruct (is_wildcard self (str_host (host ev)) None None w) as [[e|wr] w'];
    [done|].
  cbn [fst snd].
  destruct (tag_wildcard_rdtypes_frame wr ev) as (_ & Ht & Hd & Hc).
  destruct (modify_wildcard_event_data self (str_host (host ev)) wr
              (tag_wildcard_rdtypes wr ev)) as [->|(Hw & Hty & Hl & _)];
    [done|].
  rewrite Ht in Hty. rewrite Hd in Hl.
  apply event_is_wildcard_nonempty in Hw as [Hn _]. rewrite Hc in Hn.
  destruct Hcond as [?|[Hnil|[?|?]]]; try congruence.
  rewrite Hnil in Hn. discriminate.
Qed.

Lemma handle_wildcard_event_keeps_data_witness :
  data (handle_wildcard_event Runs.late_wildcard
          (set_data "_wildcard.evilcorp.com" Runs.www_dev_a_aaaa,
           Sample.empty_world)).2.1
  = "_wildcard.evilcorp.com".
Proof.
  apply (handle_wildcard_event_keeps_data Runs.late_wildcard
           (set_data "_wildcard.evilcorp.com" Runs.www_dev_a_aaaa)).
  right. right. left. reflexivity.
Defined.

(** X14: the data after [handle_wildcard_event] is the data before, or
    [_wildcard.<parent>] with the parent reported by the first
    wildcard-classified entry of the answer of [is_wildcard], or
    [parent_domain(event_host)] when no entry is classified wildcard. *)
Theorem handle_wildcard_event_data (self : DNSHelper) (ev : Event)
    (w : World) :
  let out := handle_wildcard_event self (ev, w) in
  data out.2.1 = data ev
  \/ exists wr w',
       is_wildcard self (str_host (host ev)) None None w = (inr wr, w')
       /\ data out.2.1
          = "_wildcard." +:+
            wildcard_parent_of (parent_domain self (str_host (host ev))) wr.
Proof.
  cbv zeta. rewrite handle_wildcard_event_outcome.
  destruct (is_ip (misc self) (host ev)); [by left|].
  destruct (is_wildcard self (str_host (host ev)) None None w) as [[e|wr] w'];
    [by left|].
  cbn [fst snd].
  destruct (tag_wildcard_rdtypes_frame wr ev) as (_ & _ & Hd & _).
  destruct (modify_wildcard_event_data self (str_host (host ev)) wr
              (tag_wildcard_rdtypes wr ev)) as [->|(_ & _ & _ & ->)].
  - by left.
  - right. eauto.
Qed.

(** X15: when the wildcard check returns, the tags of the event are the
    former tags and, for each entry of the answer, [wildcard] and
    [<rdtype lowercased>-wildcard] if it is classified wildcard and
    [<rdtype lowercased>-error] if it is not; no other tag is added. *)
Theorem handle_wildcard_event_tags (self : DNSHelper) (ev : Event)
    (w w' : World) (wildcard_rdtypes : WildcardRdtypes) :
  is_ip (misc self) (host ev) = false ->
  is_wildcard self (str_host (host ev)) None None w
  = (inr wildcard_rdtypes, w') ->
  tags (handle_wildcard_event self (ev, w)).2.1
  = tags ev ∪ list_to_set (concat (map entry_tags wildcard_rdtypes)).
Proof.
  intros Hip Hw. rewrite handle_wildcard_event_outcome, Hip, Hw.
  cbn [fst snd].
  destruct (modify_wildcard_event_frame self (str_host (host ev))
              wildcard_rdtypes (tag_wildcard_rdtypes wildcard_rdtypes ev))
    as (_ & _ & -> & _).
  apply tag_wildcard_rdtypes_tags.
Qed.

Lemma handle_wildcard_event_tags_witness :
  tags (handle_wildcard_event Runs.late_wildcard
          (Runs.www_dev_a_aaaa, Sample.empty_world)).2.1
  = tags Runs.www_dev_a_aaaa
    ∪ list_to_set
        (concat
           (map entry_tags
              [("A", (None, "dev.evilcorp.com"));
               ("AAAA", (Some true, "evilcorp.com"));
               ("TXT", (Some true, "com"))])).
Proof.
  apply (handle_wildcard_event_tags Runs.late_wildcard Runs.www_dev_a_aaaa
           Sample.empty_world
           (mkWorld [] [CallIsWildcard "www.dev.evilcorp.com" None None]));
    reflexivity.
Defined.

(** X16: an event that did not carry the tag [wildcard] carries it after
    [handle_wildcard_event] exactly when some record type of the answer is
    classified wildcard. *)
Theorem handle_wildcard_event_wildcard_tag (self : DNSHelper) (ev : Event)
    (w w' : World) (wildcard_rdtypes : WildcardRdtypes) :
  is_ip (misc self) (host ev) = false ->
  is_wildcard self (str_host (host ev)) None None w
  = (inr wildcard_rdtypes, w') ->
  "wildcard" ∉ tags ev ->
  "wildcard" ∈ tags (handle_wildcard_event self (ev, w)).2.1
  <-> exists rdtype parent,
        (rdtype, (Some true, parent)) ∈ wildcard_rdtypes.
Proof.
  intros Hip Hw Hnot. rewrite handle_wildcard_event_outcome, Hip, Hw.
  cbn [fst snd].
  destruct (modify_wildcard_event_frame self (str_host (host ev))
              wildcard_rdtypes (tag_wildcard_rdtypes wildcard_rdtypes ev))
    as (_ & _ & -> & _).
  rewrite tag_wildcard_rdtypes_tags, elem_of_union, elem_of_list_to_set.
  split.
  - intros [?|Hin]; [done|].
    apply list_elem_of_In, in_concat in Hin as (l & Hl & Hin).
    apply in_map_iff in Hl as ([r [b p]] & <- & Hkv).
    apply list_elem_of_In, wildcard_in_entry_tags in Hin. simpl in Hin.
    subst b. exists r, p. by apply list_elem_of_In.
  - intros (r & p & Hkv). right.
    apply list_elem_of_In, in_concat.
    exists (entry_tags (r, (Some true, p))). split.
    + apply in_map. by apply list_elem_of_In.
    + apply list_elem_of_In. by apply wildcard_in_entry_tags.
Qed.

Lemma handle_wildcard_event_wildcard_tag_witness :
  "wildcard" ∈ tags (handle_wildcard_event Runs.late_wildcard
                       (Runs.www_dev_a_aaaa, Sample.empty_world)).2.1
  <-> exists rdtype parent,
        (rdtype, (Some true, parent))
        ∈ [("A", (None, "dev.evilcorp.com"));
           ("AAAA", (Some true, "evilcorp.com"));
           ("TXT", (Some true, "com"))].
Proof.
  apply (handle_wildcard_event_wildcard_tag Runs.late_wildcard
           Runs.www_dev_a_aaaa Sample.empty_world
           (mkWorld [] [CallIsWildcard "www.dev.evilcorp.com" None None]));
    [reflexivity|reflexivity|].
  simpl. apply not_elem_of_empty.
Defined.

(** X17: [handle_wildcard_event] never touches the event cache and sends
    the engine at most one request, the wildcard check of the cleaned
    [str(event.host)]. *)
Theorem handle_wildcard_event_effects (self : DNSHelper) (ev : Event)
    (w : World) :
  let w' := (handle_wildcard_event self (ev, w)).2.2 in
  event_cache w' = event_cache w
  /\ (engine_calls w' = engine_calls w
      \/ engine_calls w'
         = CallIsWildcard
             (clean_dns_record (misc self) (str_host (host ev))) None None
             :: engine_calls w).
Proof.
  cbv zeta.
  assert (Hw : (handle_wildcard_event self (ev, w)).2.2
               = if is_ip (misc self) (host ev) then w
                 else (is_wildcard self (str_host (host ev)) None None w).2).
  { rewrite handle_wildcard_event_outcome.
    destruct (is_ip (misc self) (host ev)); [done|].
    destruct (is_wildcard self (str_host (host ev)) None None w)
      as [[e|wr] w']; done. }
  rewrite Hw. destruct (is_ip (misc self) (host ev)); [auto|].
  destruct (skipped self (str_host (host ev))) eqn:Hs.
  - rewrite is_wildcard_skipped; [auto| |done]. vm_compute. discriminate.
  - rewrite is_wildcard_delegates; [| |done].
    + unfold run_is_wildcard.
      destruct (engine_is_wildcard _ _ _ _); simpl; auto.
    + vm_compute. discriminate.
Qed.



(** ** The ignore list built by [__init__] *)

Section InitFacts.

Lemma lower_ascii_idemp c :
  PyStr.lower_ascii (PyStr.lower_ascii c) = PyStr.lower_ascii c.
Proof. destruct c as [[] [] [] [] [] [] [] []]; reflexivity. Qed.

Lemma is_space_lower_ascii c :
  Init.is_space (PyStr.lower_ascii c) = Init.is_space c.
Proof. destruct c as [[] [] [] [] [] [] [] []]; reflexivity. Qed.

Lemma lower_idemp s : PyStr.lower (PyStr.lower s) = PyStr.lower s.
Proof.
  unfold PyStr.lower. induction s as [|c s IH]; simpl; [done|].
  by rewrite lower_ascii_idemp, IH.
Qed.

Lemma lstrip_lower s :
  Init.lstrip (PyStr.lower s) = PyStr.lower (Init.lstrip s).
Proof.
  unfold PyStr.lower. induction s as [|c s IH]; simpl; [done|].
  rewrite is_space_lower_ascii. by destruct (Init.is_space c).
Qed.

Lemma rstrip_lower s :
  Init.rstrip (PyStr.lower s) = PyStr.lower (Init.rstrip s).
Proof.
  unfold PyStr.lower. induction s as [|c s IH]; simpl; [done|].
  rewrite IH, is_space_lower_ascii.
  destruct (Init.rstrip s); simpl; [|done].
  by destruct (Init.is_space c).
Qed.

Lemma rstrip_idemp s : Init.rstrip (Init.rstrip s) = Init.rstrip s.
Proof.
  induction s as [|c s IH]; simpl; [done|].
  destruct (Init.rstrip s) as [|c' r] eqn:Hr.
  - destruct (Init.is_space c) eqn:Hc; simpl; [done|]. by rewrite Hc.
  - simpl in *. by rewrite IH.
Qed.

Lemma lstrip_no_leading_space s : Init.no_leading_space (Init.lstrip s).
Proof.
  induction s as [|c s IH]; simpl; [done|].
  destruct (Init.is_space c) eqn:Hc; [done|]. simpl. done.
Qed.

Lemma lstrip_fixed s : Init.no_leading_space s -> Init.lstrip s = s.
Proof. destruct s as [|c s]; simpl; [done|]. by intros ->. Qed.

Lemma rstrip_no_leading_space s :
  Init.no_leading_space s -> Init.no_leading_space (Init.rstrip s).
Proof.
  destruct s as [|c s]; simpl; [done|]. intros Hc.
  destruct (Init.rstrip s); [by rewrite Hc|done].
Qed.

Lemma strip_idemp s : Init.strip (Init.strip s) = Init.strip s.
Proof.
  unfold Init.strip.
  rewrite (lstrip_fixed (Init.rstrip (Init.lstrip s))).
  - apply rstrip_idemp.
  - apply rstrip_no_leading_space, lstrip_no_leading_space.
Qed.

Lemma strip_lower s : Init.strip (PyStr.lower s) = PyStr.lower (Init.strip s).
Proof. unfold Init.strip. by rewrite lstrip_lower, rstrip_lower. Qed.

End InitFacts.

(** X19: every entry of [self.wildcard_ignore] is stored normalised:
    lowercasing it or stripping it again changes nothing; the list has one
    entry per configured entry, and none when the key is absent. *)
Theorem init_wildcard_ignore_normalised (config : Init.Config) :
  (forall d, d ∈ Init.init_wildcard_ignore config ->
             PyStr.lower d = d /\ Init.strip d = d)
  /\ length (Init.init_wildcard_ignore config)
     = length (default [] (Init.dns_wildcard_ignore config)).
Proof.
  unfold Init.init_wildcard_ignore.
  destruct (Init.dns_wildcard_ignore config) as [[|d0 ds]|]; simpl;
    try (split; [intros d Hd; by apply elem_of_nil in Hd|done]).
  split; [|by rewrite length_map].
  intros d Hd.
  change (d ∈ map (fun d => PyStr.lower (Init.strip d)) (d0 :: ds)) in Hd.
  apply list_elem_of_fmap in Hd as (raw & -> & _).
  split; [apply lower_idemp|].
  by rewrite strip_lower, strip_idemp.
Qed.

(** X20: an entry of the configured ignore list takes effect in its
    normalised form: a query that [host_in_host] matches against the
    lowercased, stripped entry gets the empty dict from [is_wildcard] of
    the helper built by [__init__], with nothing sent to the engine. *)
Theorem configured_entry_is_ignored (config : Init.Config) (m : Misc)
    (parent : string -> string)
    (resolve_answers :
       string -> string -> bool -> string + (gset string * DnsChildren))
    (wildcard_answers :
       string -> option (list string) -> option string
       -> string + WildcardRdtypes)
    (entries : list string) (d query : string) (ips : option (list string))
    (rdtype : option string) (w : World) :
  Init.dns_wildcard_ignore config = Some entries ->
  d ∈ entries ->
  (ips = None <-> rdtype = None) ->
  host_in_host m query (PyStr.lower (Init.strip d)) = true ->
  is_wildcard (Init.init config m parent resolve_answers wildcard_answers).1
    query ips rdtype w
  = (inr [], w).
Proof.
  intros Hcfg Hd Hboth Hmatch. apply is_wildcard_skipped.
  - intros H1. apply count_None_cases in H1. tauto.
  - unfold skipped. simpl.
    assert (He : existsb (host_in_host m query)
                   (Init.init_wildcard_ignore config) = true).
    { apply existsb_exists. exists (PyStr.lower (Init.strip d)).
      split; [|done]. apply list_elem_of_In.
      unfold Init.init_wildcard_ignore. rewrite Hcfg.
      destruct entries as [|d0 ds]; [by apply elem_of_nil in Hd|].
      apply list_elem_of_fmap. by exists d. }
    rewrite He. by rewrite orb_true_r.
Qed.

Lemma configured_entry_is_ignored_witness :
  is_wildcard
    (Init.init (Init.mkConfig None None (Some ["github.io"; "  EvilCorp.COM "]))
       Sample.sample_misc Sample.parent_domain (fun _ _ _ => inl "unused")
       (fun _ _ _ => inl "unused")).1
    "www.evilcorp.com" None None Sample.empty_world
  = (inr [], Sample.empty_world).
Proof.
  apply (configured_entry_is_ignored _ _ _ _ _
           ["github.io"; "  EvilCorp.COM "] "  EvilCorp.COM ");
    [reflexivity|set_solver|done|vm_compute; reflexivity].
Defined.

(** ** The rewritten data and the guard of the rewrite *)

(** X21: data that [handle_wildcard_event] has changed carries the label
    [_wildcard], the very label whose presence keeps the rewrite from
    being applied. *)
Theorem handle_wildcard_event_rewritten_label (self : DNSHelper) (ev : Event)
    (w : World) :
  data (handle_wildcard_event self (ev, w)).2.1 <> data ev ->
  PyStr.mem "_wildcard"
    (PyStr.split "." (data (handle_wildcard_event self (ev, w)).2.1))
  = true.
Proof.
  rewrite handle_wildcard_event_outcome.
  destruct (is_ip (misc self) (host ev)); [done|].
  destruct (is_wildcard self (str_host (host ev)) None None w) as [[e|wr] w'];
    [done|].
  cbn [fst snd].
  destruct (tag_wildcard_rdtypes_frame wr ev) as (_ & _ & Hd & _).
  destruct (modify_wildcard_event_data self (str_host (host ev)) wr
              (tag_wildcard_rdtypes wr ev)) as [->|(_ & _ & _ & ->)];
    [congruence|].
  intros _.
  change ("_wildcard." +:+ ?p) with ("_wildcard" +:+ String "." p).
  rewrite split_app_sep by reflexivity. reflexivity.
Qed.

Lemma handle_wildcard_event_rewritten_label_witness :
  PyStr.mem "_wildcard"
    (PyStr.split "."
       (data (handle_wildcard_event Runs.late_wildcard
                (Runs.www_dev_a_aaaa, Sample.empty_world)).2.1))
  = true.
Proof.
  apply handle_wildcard_event_rewritten_label. vm_compute. discriminate.
Defined.
